(** * Sentiment-analysis notebook: a shallow embedding of its own code

    The notebook [sentiment-analysis/tf-sentiment-analysis.ipynb] is glue
    around a managed ML platform.  What it computes itself is small:
    - cell 3 names the data directories,
    - cell 4 writes the first rows of [x_test] as CSV,
    - cells 8, 10, 16 and 34 build configuration values,
    - cell 24 flattens and rounds the returned predictions,
    - cells 26 and 30 decode integer-encoded reviews back to words and
      strip the leading unknown tokens,
    - cell 28 turns a score into a label,
    - cell 36 names the tuning job after the time of day.

    Each of these is embedded below as a Rocq function, next to the line
    it comes from.  Values produced by the platform or by the dataset
    library (the word index, the arrays, the execution role, the JSON
    that comes back) are parameters of the functions that read them.

    Part I holds the definitions, Part II the lemmas and theorems. *)

From Stdlib Require Import ZArith QArith Strings.String Strings.Ascii.
From Stdlib Require Import Numbers.DecimalString Numbers.DecimalZ Numbers.DecimalPos.
From stdpp Require Import gmap strings list fin_maps.

Local Open Scope string_scope.
Local Open Scope list_scope.
Local Open Scope Z_scope.

(** * Part I: the embedding *)

(** ** Python dictionaries

    A Python [dict] keeps its items in insertion order and has one item
    per key.  Where the notebook iterates over a dictionary
    ([word_index.items()]) the order is part of the value, so such a
    dictionary is the ordered list of its items and [dict_wf] is the
    one-item-per-key invariant.  A dictionary that is only ever looked up
    is a [gmap]. *)

Module PyDict.
Section Ordered.
Context {K V : Type} `{EqDecision K}.

(** [d[k]]; [None] stands for [KeyError]. *)
Fixpoint getitem (k : K) (d : list (K * V)) : option V :=
  match d with
  | [] => None
  | (k', v) :: d' => if decide (k' = k) then Some v else getitem k d'
  end.

(** [d.items()] *)
Definition items (d : list (K * V)) : list (K * V) := d.

(** [d.values()] *)
Definition values (d : list (K * V)) : list V := d.*2.

Definition dict_wf (d : list (K * V)) : Prop := NoDup d.*1.
End Ordered.

(** [dict(pairs)]: the pairs are stored one after the other, so a later
    pair replaces an earlier one that has the same key. *)
Definition of_pairs `{Countable K} {V} (pairs : list (K * V)) : gmap K V :=
  foldl (λ d kv, <[kv.1 := kv.2]> d) ∅ pairs.

(** [d.get(k, default)] *)
Definition get `{Countable K} {V} (d : gmap K V) (k : K) (dflt : V) : V :=
  default dflt (d !! k).
End PyDict.

(** ** Cells 1 and 4: dataset constants and the CSV file *)

Module Prepare.
Definition max_features : Z := 20000.
Definition maxlen : Z := 400.

Definition newline : string := String "010"%char EmptyString.

(** The value an integer has once stored with [dtype=np.int32]: itself
    when it fits 32 signed bits, wrapped around otherwise. *)
Definition to_int32 (z : Z) : Z := (z + 2 ^ 31) mod 2 ^ 32 - 2 ^ 31.

(** [np.array(rows, dtype=np.int32)] on a two-dimensional array. *)
Definition as_int32 (rows : list (list Z)) : list (list Z) :=
  (λ row : list Z, to_int32 <$> row) <$> rows.

(** ['%d' % v] *)
Definition fmt_d (v : Z) : string := NilZero.string_of_int (Z.to_int v).

(** The text of one row, before its newline: the formatted values joined
    by the delimiter. *)
Definition row_text (delimiter : string) (row : list Z) : string :=
  String.concat delimiter (fmt_d <$> row).

(** [fh.write(text)] on a file whose content so far is [file]. *)
Definition write (file : string) (text : string) : string := file +:+ text.

(** [np.savetxt(fname, X, fmt='%d', delimiter=...)]: the file is opened
    empty and each row of [X] is written to it in turn, followed by a
    newline. *)
Definition savetxt (X : list (list Z)) (delimiter : string) : string :=
  foldl (λ file row, write file (row_text delimiter row +:+ newline)) "" X.

(** [x_test[:100]] *)
Definition first_100 {A} (x : list A) : list A := take 100 x.

(** The content of [data/csv-test/csv-test.csv]:
    [np.savetxt(..., np.array(x_test[:100], dtype=np.int32), fmt='%d', delimiter=",")] *)
Definition csv_test (x_test : list (list Z)) : string :=
  savetxt (as_int32 (first_100 x_test)) ",".

(** The row of the file that a row of the array becomes. *)
Definition csv_row (row : list Z) : string :=
  row_text "," (to_int32 <$> row).

(** A text file given by its lines, each one closed by a newline. *)
Definition unlines (ls : list string) : string :=
  foldr (λ l file, l +:+ newline +:+ file) "" ls.

(** Does the character occur in the string? *)
Fixpoint contains (c : ascii) (s : string) : bool :=
  match s with
  | EmptyString => false
  | String c' s' => if decide (c' = c) then true else contains c s'
  end.

(** Reading a text file back line by line (a final line without a
    newline still counts as a line). *)
Fixpoint lines_of (file : string) : list string :=
  match file with
  | EmptyString => []
  | String c rest =>
      if decide (c = "010"%char) then EmptyString :: lines_of rest
      else match lines_of rest with
           | [] => [String c EmptyString]
           | l :: ls => String c l :: ls
           end
  end.
End Prepare.

(** ** Cells 8, 10 and 16: the estimators *)

(** The keyword arguments of a [TensorFlow(...)] constructor call. *)
Module TensorFlow.
Record args := Args {
  git_config : gmap string string;
  source_dir : string;
  entry_point : string;
  model_dir : string;
  train_instance_type : string;
  train_instance_count : Z;
  hyperparameters : gmap string Z;
  role : string;
  base_job_name : string;
  framework_version : string;
  py_version : string;
  script_mode : bool
}.
End TensorFlow.

(** [git_config = {'repo': ..., 'branch': 'master'}] *)
Module Cell8.
Definition git_config : gmap string string :=
  <["branch" := "master"]>
    (<["repo" := "https://github.com/aws-samples/amazon-sagemaker-script-mode"]> ∅).
End Cell8.

(** Cell 10 binds [model_dir], [train_instance_type] and
    [hyperparameters]; cell 16 binds the last two again, to new values.
    A constructor call reads the bindings in force when its cell runs. *)
Module Cell10.
Definition model_dir : string := "/opt/ml/model".
Definition train_instance_type : string := "local".
Definition hyperparameters : gmap string Z :=
  <["batch_size" := 128]> (<["epochs" := 1]> ∅).

(** [execution_role] is what [sagemaker.get_execution_role()] returns. *)
Definition local_estimator (execution_role : string) : TensorFlow.args :=
  TensorFlow.Args Cell8.git_config "tf-sentiment-script-mode" "sentiment.py"
    model_dir train_instance_type 1 hyperparameters execution_role
    "tf-keras-sentiment" "1.13" "py3" true.
End Cell10.

Module Cell16.
Definition train_instance_type : string := "ml.p3.2xlarge".
Definition hyperparameters : gmap string Z :=
  <["batch_size" := 128]> (<["epochs" := 10]> ∅).

Definition estimator (execution_role : string) : TensorFlow.args :=
  TensorFlow.Args Cell8.git_config "tf-sentiment-script-mode" "sentiment.py"
    Cell10.model_dir train_instance_type 1 hyperparameters execution_role
    "tf-keras-sentiment" "1.13" "py3" true.
End Cell16.

(** Every estimator the notebook constructs, in the order of the cells. *)
Definition estimators (execution_role : string) : list TensorFlow.args :=
  [Cell10.local_estimator execution_role; Cell16.estimator execution_role].

(** ** Cell 34: the tuning ranges *)

Module Tuning.
(** [IntegerParameter(min_value, max_value)] *)
Record IntegerParameter := { min_value : Z; max_value : Z }.

Definition hyperparameter_ranges : gmap string IntegerParameter :=
  <["batch_size" := {| min_value := 64; max_value := 256 |}]>
    (<["epochs" := {| min_value := 10; max_value := 50 |}]> ∅).

Definition objective_metric_name : string := "val_acc".
Definition objective_type : string := "Maximize".

(** An integer range admits the integers between its two ends, both
    included. *)
Definition in_range (r : IntegerParameter) (v : Z) : Prop :=
  min_value r ≤ v ≤ max_value r.

Global Instance in_range_dec r v : Decision (in_range r v).
Proof. unfold in_range. apply _. Defined.

(** A combination of hyperparameter values is admitted by a dictionary
    of ranges when it gives a value to exactly the names that have a
    range, each value inside its range. *)
Definition admitted (ranges : gmap string IntegerParameter)
    (combination : gmap string Z) : Prop :=
  map_relation (λ _ r v, in_range r v) (λ _ _, False) (λ _ _, False)
    ranges combination.

Global Instance admitted_dec ranges combination :
  Decision (admitted ranges combination).
Proof. unfold admitted. apply _. Defined.
End Tuning.

(** ** Cell 24: the results list *)

Module Batch.
Section Results.
(** [number] is a JSON number as [json.load] returns it, [float] a
    Python float; [fmt_3f item] is ['%.3f' % item] and
    [float_of_string] is [float(...)]. *)
Context {number float : Type}.
Variable fmt_3f : number → string.
Variable float_of_string : string → float.

Definition round3 (item : number) : float := float_of_string (fmt_3f item).

(** [[float('%.3f'%(item)) for sublist in predictions for item in sublist]]
    where [predictions] is [jstr['predictions']]: the outer loop runs
    over the sublists, the inner one over the items, and each item
    appends one value to the list being built. *)
Definition results (predictions : list (list number)) : list float :=
  foldl (λ acc sublist, foldl (λ acc item, acc ++ [round3 item]) acc sublist)
        [] predictions.

(** The same list as the claim words it: flatten, then round every
    element. *)
Definition results_spec (predictions : list (list number)) : list float :=
  round3 <$> concat predictions.
End Results.
End Batch.

(** ** Cells 26 and 30: decoding a review *)

Module Decode.
Import PyDict.

(** [[(value, key) for (key, value) in word_index.items()]] *)
Definition swapped_items (word_index : list (string * Z)) : list (Z * string) :=
  (λ kv, (kv.2, kv.1)) <$> items word_index.

(** [reverse_word_index = dict([(value, key) for (key, value) in word_index.items()])] *)
Definition reverse_word_index (word_index : list (string * Z)) : gmap Z string :=
  of_pairs (swapped_items word_index).

(** [reverse_word_index.get(i - 3, '?')].  The values of a review are
    small non-negative array elements; the subtraction is taken on
    unbounded integers. *)
Definition decode_token (rwi : gmap Z string) (i : Z) : string :=
  get rwi (i - 3) "?".

(** [[reverse_word_index.get(i - 3, '?') for i in review]] *)
Definition decode_tokens (rwi : gmap Z string) (review : list Z) : list string :=
  decode_token rwi <$> review.

(** [' '.join([reverse_word_index.get(i - 3, '?') for i in review])] *)
Definition decoded_review (rwi : gmap Z string) (review : list Z) : string :=
  String.concat " " (decode_tokens rwi review).
End Decode.

(** ** Cell 28: the label of a score *)

Module Sentiment.
(** The numbers [get_sentiment] is called on are labels (integers) and
    predictions (floats).  Every integer and every finite float is a
    rational, and Python compares such a number with the float [0.5]
    exactly; a float can also be an infinity or a NaN. *)
Inductive score :=
| Finite (q : Q)
| PosInf
| NegInf
| NaN.

(** [s > q]: [true] when the comparison holds; every comparison with
    a NaN is false. *)
Definition gtb (s : score) (q : Q) : bool :=
  match s with
  | Finite x => negb (Qle_bool x q)
  | PosInf => true
  | NegInf => false
  | NaN => false
  end.

(** [return 'positive' if score > 0.5 else 'negative'] *)
Definition get_sentiment (s : score) : string :=
  if gtb s (1 # 2) then "positive" else "negative".

(** What [s > q] means. *)
Definition greater (s : score) (q : Q) : Prop :=
  match s with
  | Finite x => (q < x)%Q
  | PosInf => True
  | NegInf => False
  | NaN => False
  end.
End Sentiment.

(** ** Cell 3: the data directories *)

Module Paths.
(** [b.startswith('/')] *)
Definition starts_with_sep (b : string) : bool :=
  match b with
  | String c _ => bool_decide (c = "/"%char)
  | EmptyString => false
  end.

(** [path.endswith('/')] *)
Fixpoint ends_with_sep (path : string) : bool :=
  match path with
  | EmptyString => false
  | String c EmptyString => bool_decide (c = "/"%char)
  | String _ rest => ends_with_sep rest
  end.

(** [os.path.join(a, b)] on the notebook instance (POSIX paths): an
    absolute [b] replaces [a]; otherwise [b] is appended, after a
    separator unless [a] is empty or ends with one. *)
Definition path_join (a b : string) : string :=
  if starts_with_sep b then b
  else if bool_decide (a = "") || ends_with_sep a then a +:+ b
  else a +:+ "/" +:+ b.

Section Cwd.
(** What [os.getcwd()] returns. *)
Variable cwd : string.

Definition data_dir : string := path_join cwd "data".
Definition train_dir : string := path_join cwd "data/train".
Definition test_dir : string := path_join cwd "data/test".
Definition csv_test_dir : string := path_join cwd "data/csv-test".

(** The file names of cell 4. *)
Definition x_train_npy : string := path_join train_dir "x_train.npy".
Definition y_train_npy : string := path_join train_dir "y_train.npy".
Definition x_test_npy : string := path_join test_dir "x_test.npy".
Definition y_test_npy : string := path_join test_dir "y_test.npy".
Definition csv_test_csv : string := path_join csv_test_dir "csv-test.csv".

(** Cell 12:
    [inputs = {'train': f'file://{train_dir}', 'test': f'file://{test_dir}'}] *)
Definition inputs : gmap string string :=
  <["test" := "file://" +:+ test_dir]> (<["train" := "file://" +:+ train_dir]> ∅).
End Cwd.
End Paths.

(** ** Cell 4, read back: the fields and numbers of a CSV file *)

Module CsvRead.
(** The pieces of a line between its commas. *)
Fixpoint fields_of (line : string) : list string :=
  match line with
  | EmptyString => [EmptyString]
  | String c rest =>
      if decide (c = ","%char) then EmptyString :: fields_of rest
      else match fields_of rest with
           | [] => [String c EmptyString]
           | f :: fs => String c f :: fs
           end
  end.

(** A decimal numeral, with a minus sign in front when negative. *)
Definition parse_int (field : string) : option Z :=
  Z.of_int <$> NilZero.int_of_string field.

Definition read_row (line : string) : option (list Z) :=
  mapM parse_int (fields_of line).

Definition read_csv (file : string) : option (list (list Z)) :=
  mapM read_row (Prepare.lines_of file).
End CsvRead.

(** ** Cell 26: the leading run of unknown tokens *)

Module Regex.
(** [\s] in a [str] pattern matches the whitespace characters.  A
    character is taken with its code point, here below 256: tab to
    carriage return, the four separators 28 to 31, the space, the next
    line control 133 and the no-break space 160. *)
Definition is_space (c : ascii) : bool :=
  let n := nat_of_ascii c in
  ((9 <=? n) && (n <=? 13) || (28 <=? n) && (n <=? 32)
   || (n =? 133) || (n =? 160))%nat.

(** The class [[\?\s]] *)
Definition in_class (c : ascii) : bool :=
  bool_decide (c = "?"%char) || is_space c.

(** [regex = re.compile(r'^[\?\s]+')] and [regex.sub('', s)]: the
    pattern is anchored at the start of the string and the repetition is
    greedy, so the one match there can be is the longest leading run of
    class characters; it is replaced by the empty string.  Without such
    a run the string is returned as it is. *)
Fixpoint regex_sub (s : string) : string :=
  match s with
  | String c rest => if in_class c then regex_sub rest else s
  | EmptyString => EmptyString
  end.

(** Are all characters of the string in the class? *)
Fixpoint all_in_class (s : string) : bool :=
  match s with
  | String c rest => in_class c && all_in_class rest
  | EmptyString => true
  end.

(** Cells 26 and 30: what is displayed for a review. *)
Definition displayed_review (rwi : gmap Z string) (review : list Z) : string :=
  regex_sub (Decode.decoded_review rwi review).
End Regex.

(** ** Cell 36: the name of the tuning job *)

Module TuningJob.
(** [time.struct_time], as [gmtime()] returns it. *)
Record struct_time := {
  tm_year : Z; tm_mon : Z; tm_mday : Z;
  tm_hour : Z; tm_min : Z; tm_sec : Z;
  tm_wday : Z; tm_yday : Z; tm_isdst : Z
}.

(** The ranges of the fields that the format reads. *)
Definition valid_time (t : struct_time) : Prop :=
  1 ≤ tm_mday t ≤ 31 ∧ 0 ≤ tm_hour t ≤ 23 ∧
  0 ≤ tm_min t ≤ 59 ∧ 0 ≤ tm_sec t ≤ 61.

Global Instance valid_time_dec t : Decision (valid_time t).
Proof. unfold valid_time. apply _. Defined.

(** A [%d], [%H], [%M] or [%S] field: two decimal digits, with a
    leading zero below ten. *)
Definition two_digits (n : Z) : string :=
  if n <? 10 then "0" +:+ Prepare.fmt_d n else Prepare.fmt_d n.

(** [strftime("%d-%H-%M-%S", t)] *)
Definition strftime_dHMS (t : struct_time) : string :=
  two_digits (tm_mday t) +:+ "-" +:+ two_digits (tm_hour t) +:+ "-" +:+
  two_digits (tm_min t) +:+ "-" +:+ two_digits (tm_sec t).

(** [tuning_job_name = "tf-sentimentanalysis-{}".format(strftime("%d-%H-%M-%S", gmtime()))] *)
Definition tuning_job_name (now : struct_time) : string :=
  "tf-sentimentanalysis-" +:+ strftime_dHMS now.

(** A lower-case letter, a digit or a hyphen. *)
Definition name_char (c : ascii) : bool :=
  let n := nat_of_ascii c in
  ((97 <=? n) && (n <=? 122) || (48 <=? n) && (n <=? 57) || (n =? 45))%nat.

Fixpoint all_name_chars (s : string) : bool :=
  match s with
  | String c rest => name_char c && all_name_chars rest
  | EmptyString => true
  end.
End TuningJob.


(** * Part II: properties *)

(** ** Dictionaries *)

Section PyDictFacts.
Import PyDict.
Context {K V : Type} `{EqDecision K}.
Implicit Types (k : K) (v : V) (d : list (K * V)).

Lemma getitem_Some_elem_of k v d :
  getitem k d = Some v → (k, v) ∈ d.
Proof.
  induction d as [|[k' v'] d IH]; simpl; [done|].
  case_decide as Hk.
  - intros [= ->]. subst k'. left.
  - intros Hget. right. by apply IH.
Qed.

Lemma getitem_None k d :
  getitem k d = None ↔ k ∉ d.*1.
Proof.
  induction d as [|[k' v'] d IH]; simpl.
  - split; [intros _; apply not_elem_of_nil | done].
  - rewrite not_elem_of_cons. case_decide as Hk.
    + split; [done | intros [Hne _]; by subst].
    + rewrite IH. split; [by intros ? | by intros [_ ?]].
Qed.

(** A key all of whose items carry the same value is looked up to that
    value, wherever the items stand. *)
Lemma elem_of_getitem_unique k v d :
  (k, v) ∈ d → (∀ v', (k, v') ∈ d → v' = v) → getitem k d = Some v.
Proof.
  induction d as [|[k' v'] d IH]; simpl; intros Hin Huniq.
  - by apply elem_of_nil in Hin.
  - case_decide as Hk.
    + subst k'. f_equal. apply Huniq. left.
    + apply IH.
      * apply elem_of_cons in Hin as [[= -> ->]|Hin]; [done | exact Hin].
      * intros v'' Hv''. apply Huniq. by right.
Qed.

Lemma elem_of_getitem k v d :
  dict_wf d → (k, v) ∈ d → getitem k d = Some v.
Proof.
  unfold dict_wf. induction d as [|[k' v'] d IH]; simpl.
  - intros _ Hin. by apply elem_of_nil in Hin.
  - rewrite NoDup_cons. intros [Hnotin Hnd] Hin.
    apply elem_of_cons in Hin as [[= -> ->]|Hin].
    + by rewrite decide_True.
    + case_decide as Hk; [|by apply IH].
      subst k'. exfalso. apply Hnotin.
      apply list_elem_of_fmap. by exists (k, v).
Qed.

Lemma getitem_app k d1 d2 :
  getitem k (d1 ++ d2) =
  match getitem k d1 with Some v => Some v | None => getitem k d2 end.
Proof.
  induction d1 as [|[k' v'] d1 IH]; simpl; [done|].
  by case_decide.
Qed.
End PyDictFacts.

Section OfPairs.
Import PyDict.
Context `{Countable K} {V : Type}.
Implicit Types (k : K) (v : V) (pairs : list (K * V)) (m : gmap K V).

(** Storing the pairs in turn: the last pair with a given key decides,
    and a key with no pair keeps what the dictionary held before. *)
Lemma foldl_insert_lookup pairs m k :
  foldl (λ d kv, <[kv.1 := kv.2]> d) m pairs !! k =
  match getitem k (reverse pairs) with
  | Some v => Some v
  | None => m !! k
  end.
Proof.
  revert m. induction pairs as [|[k' v'] pairs IH]; intros m; simpl; [done|].
  rewrite IH, reverse_cons, getitem_app. simpl.
  destruct (getitem k (reverse pairs)) as [v|]; [done|].
  case_decide as Hk.
  - subst k'. by rewrite lookup_insert_eq.
  - by rewrite lookup_insert_ne.
Qed.

Lemma of_pairs_lookup pairs k :
  of_pairs pairs !! k = getitem k (reverse pairs).
Proof.
  unfold of_pairs. rewrite foldl_insert_lookup, lookup_empty.
  by destruct (getitem k (reverse pairs)).
Qed.

Lemma of_pairs_lookup_None pairs k :
  of_pairs pairs !! k = None ↔ k ∉ pairs.*1.
Proof.
  rewrite of_pairs_lookup, getitem_None, fmap_reverse.
  by rewrite elem_of_reverse.
Qed.

Lemma of_pairs_lookup_unique pairs k v :
  (k, v) ∈ pairs → (∀ v', (k, v') ∈ pairs → v' = v) →
  of_pairs pairs !! k = Some v.
Proof.
  intros Hin Huniq. rewrite of_pairs_lookup.
  apply elem_of_getitem_unique.
  - by apply elem_of_reverse.
  - intros v' Hv'. apply Huniq. by apply elem_of_reverse.
Qed.
End OfPairs.

(** With two items for one key, [dict] keeps the later one. *)
Example of_pairs_last_wins :
  PyDict.of_pairs [(1, "a"); (2, "b"); (1, "c")] !! 1 = Some "c".
Proof. reflexivity. Qed.

(** ** Decoding (cells 26 and 30) *)

Section DecodeFacts.
Import PyDict Decode.
Implicit Types (word_index : list (string * Z)) (rwi : gmap Z string).

Lemma elem_of_swapped_items word_index w i :
  (i, w) ∈ swapped_items word_index ↔ (w, i) ∈ word_index.
Proof.
  unfold swapped_items, items. rewrite list_elem_of_fmap. split.
  - intros [[w' i'] [[= -> ->] Hin]]. exact Hin.
  - intros Hin. by exists (w, i).
Qed.

Lemma swapped_items_keys word_index :
  (swapped_items word_index).*1 = values word_index.
Proof.
  unfold swapped_items, items, values.
  rewrite <- list_fmap_compose. by apply list_fmap_ext.
Qed.

Lemma reverse_word_index_None word_index i :
  reverse_word_index word_index !! i = None ↔ i ∉ values word_index.
Proof.
  unfold reverse_word_index.
  by rewrite of_pairs_lookup_None, swapped_items_keys.
Qed.

Lemma decode_token_absent rwi i :
  rwi !! (i - 3) = None → decode_token rwi i = "?".
Proof. unfold decode_token, get. by intros ->. Qed.

Lemma decode_token_present rwi i w :
  rwi !! (i - 3) = Some w → decode_token rwi i = w.
Proof. unfold decode_token, get. by intros ->. Qed.

Lemma decode_tokens_app rwi r1 r2 :
  decode_tokens rwi (r1 ++ r2) = decode_tokens rwi r1 ++ decode_tokens rwi r2.
Proof. unfold decode_tokens. apply fmap_app. Qed.

Lemma decode_tokens_replicate rwi n i :
  decode_tokens rwi (replicate n i) = replicate n (decode_token rwi i).
Proof. unfold decode_tokens. apply fmap_replicate. Qed.
End DecodeFacts.

Section DecodeClaims.
Import PyDict Decode.

(** C2. When no two words of [word_index] share an index, the reversed
    dictionary sends the index of every word back to that word:
    [reverse_word_index[word_index[w]] = w]; and the decode step sends the
    encoded value [word_index[w] + 3] back to [w]. *)
Theorem reverse_word_index_roundtrip (word_index : list (string * Z)) (w : string) (i : Z) :
  dict_wf word_index →
  (∀ w1 w2 j, getitem w1 word_index = Some j →
              getitem w2 word_index = Some j → w1 = w2) →
  getitem w word_index = Some i →
  reverse_word_index word_index !! i = Some w ∧
  decode_token (reverse_word_index word_index) (i + 3) = w.
Proof.
  intros Hwf Hinj Hget.
  assert (reverse_word_index word_index !! i = Some w) as Hrev.
  { unfold reverse_word_index. apply of_pairs_lookup_unique.
    - apply elem_of_swapped_items. by apply getitem_Some_elem_of.
    - intros w' Hw'. apply elem_of_swapped_items in Hw'.
      apply (Hinj w' w i); [by apply elem_of_getitem | exact Hget]. }
  split; [exact Hrev|].
  apply decode_token_present.
  by replace (i + 3 - 3) with i by lia.
Qed.

Lemma reverse_word_index_roundtrip_witness :
  reverse_word_index [("the", 1); ("and", 2); ("a", 3)] !! 2 = Some "and" ∧
  decode_token (reverse_word_index [("the", 1); ("and", 2); ("a", 3)]) (2 + 3) = "and".
Proof.
  apply (reverse_word_index_roundtrip [("the", 1); ("and", 2); ("a", 3)] "and" 2).
  - unfold dict_wf. apply (bool_decide_unpack _). vm_compute. reflexivity.
  - intros w1 w2 j. simpl. repeat case_decide; congruence.
  - reflexivity.
Defined.

(** C9. Decoding has a value for every integer of a review: the looked-up
    word when [i - 3] is a key of [reverse_word_index], the placeholder
    ['?'] when it is not.  When -3, -2 and -1 are not word indices (the
    claim also asks this of 0, which is not needed), the reserved values 0
    (padding), 1 (start of sequence) and 2 (unknown) decode to ['?'], and
    a padded prefix of a review decodes to a run of ['?'] tokens. *)
Theorem decode_total_reserved (word_index : list (string * Z)) (n : nat) (rest : list Z) :
  -3 ∉ values word_index → -2 ∉ values word_index → -1 ∉ values word_index →
  let rwi := reverse_word_index word_index in
  (∀ i, decode_token rwi i = "?" ∨ rwi !! (i - 3) = Some (decode_token rwi i)) ∧
  (∀ i, rwi !! (i - 3) = None → decode_token rwi i = "?") ∧
  decode_token rwi 0 = "?" ∧ decode_token rwi 1 = "?" ∧ decode_token rwi 2 = "?" ∧
  decode_tokens rwi (replicate n 0 ++ rest) = replicate n "?" ++ decode_tokens rwi rest ∧
  decoded_review rwi (replicate n 0) = String.concat " " (replicate n "?").
Proof.
  intros H3 H2 H1 rwi.
  assert (decode_token rwi 0 = "?") as Hpad.
  { apply decode_token_absent. by apply reverse_word_index_None. }
  split; [|split; [|split; [|split; [|split; [|split]]]]].
  - intros i. unfold decode_token, get.
    destruct (rwi !! (i - 3)) as [w|]; [by right | by left].
  - apply decode_token_absent.
  - exact Hpad.
  - apply decode_token_absent. by apply reverse_word_index_None.
  - apply decode_token_absent. by apply reverse_word_index_None.
  - by rewrite decode_tokens_app, decode_tokens_replicate, Hpad.
  - unfold decoded_review. by rewrite decode_tokens_replicate, Hpad.
Qed.

Lemma decode_total_reserved_witness :
  let rwi := reverse_word_index [("the", 1); ("and", 2); ("a", 3)] in
  (∀ i, decode_token rwi i = "?" ∨ rwi !! (i - 3) = Some (decode_token rwi i)) ∧
  (∀ i, rwi !! (i - 3) = None → decode_token rwi i = "?") ∧
  decode_token rwi 0 = "?" ∧ decode_token rwi 1 = "?" ∧ decode_token rwi 2 = "?" ∧
  decode_tokens rwi (replicate 2 0 ++ [1; 4]) = replicate 2 "?" ++ decode_tokens rwi [1; 4] ∧
  decoded_review rwi (replicate 2 0) = String.concat " " (replicate 2 "?").
Proof.
  apply (decode_total_reserved [("the", 1); ("and", 2); ("a", 3)] 2 [1; 4]);
    apply (bool_decide_unpack _); vm_compute; reflexivity.
Defined.

(** A review as the dataset library pads it, decoded. *)
Example decoded_review_demo :
  decoded_review (reverse_word_index [("the", 1); ("and", 2); ("a", 3)])
                 [0; 0; 1; 4; 6; 5; 9]
  = "? ? ? the a and ?".
Proof. vm_compute. reflexivity. Qed.

(** Without injectivity the word stored last for an index is the one
    that comes back. *)
Example reverse_word_index_shared_index :
  reverse_word_index [("film", 7); ("movie", 7)] !! 7 = Some "movie".
Proof. reflexivity. Qed.
End DecodeClaims.

(** ** The results list (cell 24) *)

Section BatchFacts.
Import Batch.
Context {number float : Type}.
Variable fmt_3f : number → string.
Variable float_of_string : string → float.

Abbreviation round3 := (round3 fmt_3f float_of_string).
Abbreviation results := (results fmt_3f float_of_string).
Abbreviation results_spec := (results_spec fmt_3f float_of_string).

(** The inner loop appends the rounded items of one sublist. *)
Lemma inner_loop_app (acc : list float) (sublist : list number) :
  foldl (λ acc item, acc ++ [round3 item]) acc sublist = acc ++ (round3 <$> sublist).
Proof.
  revert acc. induction sublist as [|item sublist IH]; intros acc; simpl.
  - by rewrite app_nil_r.
  - by rewrite IH, <- app_assoc.
Qed.

(** The outer loop appends the rounded items of every sublist, in turn. *)
Lemma outer_loop_app (acc : list float) (predictions : list (list number)) :
  foldl (λ acc sublist, foldl (λ acc item, acc ++ [round3 item]) acc sublist)
        acc predictions
  = acc ++ results_spec predictions.
Proof.
  unfold results_spec.
  revert acc. induction predictions as [|sublist predictions IH]; intros acc; simpl.
  - by rewrite app_nil_r.
  - by rewrite IH, inner_loop_app, fmap_app, app_assoc.
Qed.

Lemma results_eq_spec (predictions : list (list number)) :
  results predictions = results_spec predictions.
Proof. unfold Batch.results. by rewrite outer_loop_app. Qed.

(** X7. The item at place [j] of sublist [i] stands after all items of the
    sublists before it. *)
Lemma results_lookup (predictions : list (list number)) i j sublist item :
  predictions !! i = Some sublist → sublist !! j = Some item →
  results predictions !! (sum_list (length <$> take i predictions) + j)%nat
  = Some (round3 item).
Proof.
  rewrite results_eq_spec. unfold Batch.results_spec.
  revert i. induction predictions as [|sublist' predictions IH];
    intros i Hi Hj; [done|].
  destruct i as [|i]; simplify_eq/=.
  - rewrite fmap_app, lookup_app_l.
    + by rewrite list_lookup_fmap, Hj.
    + rewrite length_fmap. by eapply lookup_lt_Some.
  - rewrite fmap_app, lookup_app_r; rewrite length_fmap; [|lia].
    replace (length sublist' + sum_list (length <$> take i predictions) + j
             - length sublist')%nat
      with (sum_list (length <$> take i predictions) + j)%nat by lia.
    by apply IH.
Qed.

(** C3. The results list is the in-order flattening of the sublists of
    [jstr['predictions']] with every element formatted to three decimals
    and converted back to a float, and it has as many elements as there
    are prediction values. *)
Theorem results_flatten (predictions : list (list number)) :
  results predictions = round3 <$> concat predictions ∧
  length (results predictions) = sum_list (length <$> predictions).
Proof.
  rewrite results_eq_spec. unfold Batch.results_spec. split; [done|].
  rewrite length_fmap.
  induction predictions as [|sublist predictions IH]; simpl; [done|].
  by rewrite length_app, IH.
Qed.
End BatchFacts.

(** The order of the loops on a small input, with an integer formatter
    standing in for the two float conversions. *)
Example results_demo :
  Batch.results Prepare.fmt_d (λ s, s) [[1; 2]; []; [3]] = ["1"; "2"; "3"].
Proof. reflexivity. Qed.

(** ** The CSV file (cell 4) *)

Section Strings.
Implicit Types (s t u : string) (c : ascii).

Lemma string_app_nil_l s : "" +:+ s = s.
Proof. reflexivity. Qed.

Lemma string_app_cons c s t : String c s +:+ t = String c (s +:+ t).
Proof. reflexivity. Qed.

Lemma string_app_assoc s t u : (s +:+ t) +:+ u = s +:+ (t +:+ u).
Proof.
  induction s as [|c s IH]; [done|].
  by rewrite !string_app_cons, IH.
Qed.

Lemma string_app_nil_r s : s +:+ "" = s.
Proof.
  induction s as [|c s IH]; [done|].
  by rewrite string_app_cons, IH.
Qed.

Lemma contains_app c s t :
  Prepare.contains c (s +:+ t) = Prepare.contains c s || Prepare.contains c t.
Proof.
  induction s as [|c' s IH]; [done|].
  rewrite string_app_cons. simpl. by case_decide.
Qed.

Lemma contains_concat c sep (ls : list string) :
  Prepare.contains c sep = false →
  Forall (λ s, Prepare.contains c s = false) ls →
  Prepare.contains c (String.concat sep ls) = false.
Proof.
  intros Hsep Hls. induction Hls as [|s ls Hs Hls IH]; simpl; [done|].
  destruct ls as [|s' ls]; [done|].
  by rewrite !contains_app, Hs, Hsep, IH.
Qed.
End Strings.

Section PrepareFacts.
Import Prepare.

Lemma to_int32_id z : - 2 ^ 31 ≤ z < 2 ^ 31 → to_int32 z = z.
Proof.
  intros Hz. unfold to_int32.
  rewrite Z.mod_small; lia.
Qed.

Lemma to_int32_range z : - 2 ^ 31 ≤ to_int32 z < 2 ^ 31.
Proof.
  unfold to_int32.
  pose proof (Z.mod_pos_bound (z + 2 ^ 31) (2 ^ 32)). lia.
Qed.

(** ['%d'] writes digits, after a minus sign for a negative number. *)
Lemma string_of_uint_no_newline d :
  contains "010" (NilEmpty.string_of_uint d) = false.
Proof. induction d; simpl; repeat case_decide; done. Qed.

Lemma fmt_d_no_newline v : contains "010" (fmt_d v) = false.
Proof.
  unfold fmt_d, NilZero.string_of_int, NilZero.string_of_uint.
  destruct (Z.to_int v) as [d|d]; destruct d; simpl;
    repeat case_decide; try done; apply string_of_uint_no_newline.
Qed.

(** ['%d'] writes the decimal numeral of its argument: reading the text
    back as a decimal integer gives the number. *)
Lemma fmt_d_decimal v :
  Z.of_int <$> NilZero.int_of_string (fmt_d v) = Some v.
Proof.
  unfold fmt_d. rewrite NilZero.isi.
  - simpl. by rewrite DecimalZ.of_to.
  - destruct v as [|p|p]; simpl; try done.
    intros [= Hp]. by apply Unsigned.to_uint_nonnil in Hp.
  - destruct v as [|p|p]; simpl; try done.
    intros [= Hp]. by apply Unsigned.to_uint_nonnil in Hp.
Qed.

Lemma row_text_no_newline delimiter row :
  contains "010" delimiter = false →
  contains "010" (row_text delimiter row) = false.
Proof.
  intros Hd. unfold row_text. apply contains_concat; [done|].
  apply Forall_fmap, Forall_forall. intros v _. apply fmt_d_no_newline.
Qed.

(** Writing row after row gives the file whose lines are the rows. *)
Lemma savetxt_from file X delimiter :
  foldl (λ file row, write file (row_text delimiter row +:+ newline)) file X
  = file +:+ unlines (row_text delimiter <$> X).
Proof.
  revert file. induction X as [|row X IH]; intros file; simpl.
  - by rewrite string_app_nil_r.
  - rewrite IH. unfold write. by rewrite !string_app_assoc.
Qed.

Lemma savetxt_unlines X delimiter :
  savetxt X delimiter = unlines (row_text delimiter <$> X).
Proof. unfold savetxt. by rewrite savetxt_from. Qed.

Lemma lines_of_line l rest :
  contains "010" l = false →
  lines_of (l +:+ newline +:+ rest) = l :: lines_of rest.
Proof.
  induction l as [|c l IH].
  - intros _. unfold newline.
    by rewrite string_app_nil_l, string_app_cons, string_app_nil_l.
  - rewrite string_app_cons. simpl.
    case_decide as Hc; [done|]. intros Hl. by rewrite IH.
Qed.

Lemma lines_of_unlines ls :
  Forall (λ l, contains "010" l = false) ls →
  lines_of (unlines ls) = ls.
Proof.
  induction 1 as [|l ls Hl Hls IH]; simpl; [done|].
  by rewrite lines_of_line, IH.
Qed.

Lemma csv_test_unlines x_test :
  csv_test x_test = unlines (csv_row <$> take 100 x_test).
Proof.
  unfold csv_test, first_100, as_int32. rewrite savetxt_unlines.
  by rewrite <- list_fmap_compose.
Qed.

(** C4. The file [csv-test.csv] holds the first 100 rows of [x_test] and
    nothing else, in their order, one row per line, every row written as
    its values converted to int32, formatted with ['%d'] and separated by
    commas. *)
Theorem csv_test_first_100 (x_test : list (list Z)) :
  csv_test x_test = unlines (csv_row <$> take 100 x_test) ∧
  lines_of (csv_test x_test) = csv_row <$> take 100 x_test ∧
  length (lines_of (csv_test x_test)) = (length x_test `min` 100)%nat ∧
  csv_test x_test = csv_test (take 100 x_test).
Proof.
  assert (lines_of (csv_test x_test) = csv_row <$> take 100 x_test) as Hlines.
  { rewrite csv_test_unlines. apply lines_of_unlines.
    apply Forall_fmap, Forall_forall. intros row _.
    by apply row_text_no_newline. }
  split; [apply csv_test_unlines|]. split; [exact Hlines|]. split.
  - by rewrite Hlines, length_fmap, length_take, Nat.min_comm.
  - by rewrite !csv_test_unlines, take_take.
Qed.

Example csv_test_demo :
  csv_test [[0; 0; 14; 2071]; [0; 1; 5; 9]]
  = "0,0,14,2071" +:+ newline +:+ "0,1,5,9" +:+ newline.
Proof. vm_compute. reflexivity. Qed.
End PrepareFacts.

(** ** The estimators (cells 8, 10 and 16) *)

Section EstimatorFacts.
Import TensorFlow.
Variable execution_role : string.

Abbreviation local_estimator := (Cell10.local_estimator execution_role).
Abbreviation estimator := (Cell16.estimator execution_role).

Lemma hosted_hyperparameters :
  Cell16.hyperparameters = <["epochs" := 10]> Cell10.hyperparameters.
Proof.
  apply map_eq. intros name.
  unfold Cell16.hyperparameters, Cell10.hyperparameters.
  rewrite !lookup_insert. repeat case_decide; congruence.
Qed.

(** C5. The hosted estimator is the Local Mode estimator with two
    arguments changed: [train_instance_type] goes from ['local'] to
    ['ml.p3.2xlarge'] and [hyperparameters['epochs']] from 1 to 10.  All
    other arguments, [hyperparameters['batch_size'] = 128] among them, are
    the same in both calls. *)
Theorem hosted_estimator_frame :
  estimator =
    Args (git_config local_estimator) (source_dir local_estimator)
         (entry_point local_estimator) (model_dir local_estimator)
         "ml.p3.2xlarge" (train_instance_count local_estimator)
         (<["epochs" := 10]> (hyperparameters local_estimator))
         (role local_estimator) (base_job_name local_estimator)
         (framework_version local_estimator) (py_version local_estimator)
         (script_mode local_estimator) ∧
  train_instance_type local_estimator = "local" ∧
  train_instance_type estimator = "ml.p3.2xlarge" ∧
  hyperparameters local_estimator !! "epochs" = Some 1 ∧
  hyperparameters estimator !! "epochs" = Some 10 ∧
  hyperparameters local_estimator !! "batch_size" = Some 128 ∧
  hyperparameters estimator !! "batch_size" = Some 128 ∧
  dom (hyperparameters estimator) = dom (hyperparameters local_estimator) ∧
  git_config estimator = git_config local_estimator ∧
  source_dir estimator = source_dir local_estimator ∧
  entry_point estimator = entry_point local_estimator ∧
  model_dir estimator = model_dir local_estimator ∧
  train_instance_count estimator = train_instance_count local_estimator ∧
  role estimator = role local_estimator ∧
  base_job_name estimator = base_job_name local_estimator ∧
  framework_version estimator = framework_version local_estimator ∧
  py_version estimator = py_version local_estimator ∧
  script_mode estimator = script_mode local_estimator.
Proof.
  split.
  { unfold Cell16.estimator. simpl. by rewrite hosted_hyperparameters. }
  split; [done|]. split; [done|].
  split; [done|]. split; [done|]. split; [done|]. split; [done|].
  split.
  { simpl. rewrite hosted_hyperparameters, dom_insert_L.
    unfold Cell10.hyperparameters. rewrite !dom_insert_L. set_solver. }
  repeat split.
Qed.

(** C7. Every estimator of the notebook names its training script by
    reference: entry point ['sentiment.py'] in source directory
    ['tf-sentiment-script-mode'], located through [git_config], whose
    [repo] is the external repository, whose [branch] is ['master'] and
    which has no [commit] field (nor any other). *)
Theorem training_script_by_reference :
  Forall (λ e, entry_point e = "sentiment.py" ∧
               source_dir e = "tf-sentiment-script-mode" ∧
               git_config e = Cell8.git_config)
         (estimators execution_role) ∧
  Cell8.git_config !! "repo"
    = Some "https://github.com/aws-samples/amazon-sagemaker-script-mode" ∧
  Cell8.git_config !! "branch" = Some "master" ∧
  Cell8.git_config !! "commit" = None ∧
  dom Cell8.git_config = {["repo"; "branch"]}.
Proof.
  split; [by repeat constructor|].
  split; [done|]. split; [done|]. split; [done|].
  unfold Cell8.git_config. rewrite !dom_insert_L. set_solver.
Qed.
End EstimatorFacts.

(** ** The tuning ranges (cell 34) *)

Section TuningFacts.
Import Tuning.

Lemma admitted_lookup ranges combination name r :
  admitted ranges combination → ranges !! name = Some r →
  ∃ v, combination !! name = Some v ∧ in_range r v.
Proof.
  intros Hadm Hr. specialize (Hadm name). rewrite Hr in Hadm.
  destruct (combination !! name) as [v|]; simpl in Hadm; [|done].
  by exists v.
Qed.

Lemma admitted_dom ranges combination :
  admitted ranges combination → dom combination = dom ranges.
Proof.
  intros Hadm. apply set_eq. intros name. rewrite !elem_of_dom.
  specialize (Hadm name).
  destruct (ranges !! name), (combination !! name); simpl in Hadm;
    first [done | by split; intros [? [=]] | by split; intros _; eexists].
Qed.

(** C6. A combination of hyperparameters that the tuning ranges admit
    has an integer [epochs] between 10 and 50 and an integer [batch_size]
    between 64 and 256, and it varies no other hyperparameter: the range
    dictionary has these two names only. *)
Theorem admitted_combination_bounds (combination : gmap string Z) :
  admitted hyperparameter_ranges combination →
  (∃ epochs batch_size,
     combination !! "epochs" = Some epochs ∧ 10 ≤ epochs ≤ 50 ∧
     combination !! "batch_size" = Some batch_size ∧ 64 ≤ batch_size ≤ 256) ∧
  dom combination = {["epochs"; "batch_size"]} ∧
  dom hyperparameter_ranges = {["epochs"; "batch_size"]}.
Proof.
  intros Hadm.
  assert (dom hyperparameter_ranges = {["epochs"; "batch_size"]}) as Hdom.
  { unfold hyperparameter_ranges. rewrite !dom_insert_L. set_solver. }
  split; [|split; [|exact Hdom]].
  - destruct (admitted_lookup _ _ "epochs" _ Hadm eq_refl) as (e & He & Hre).
    destruct (admitted_lookup _ _ "batch_size" _ Hadm eq_refl) as (b & Hb & Hrb).
    exists e, b. unfold in_range in *. simpl in *. done.
  - by rewrite (admitted_dom _ _ Hadm).
Qed.

Lemma admitted_combination_bounds_witness :
  (∃ epochs batch_size,
     (<["batch_size" := 64]> (<["epochs" := 20]> ∅) : gmap string Z) !! "epochs"
       = Some epochs ∧ 10 ≤ epochs ≤ 50 ∧
     (<["batch_size" := 64]> (<["epochs" := 20]> ∅) : gmap string Z) !! "batch_size"
       = Some batch_size ∧ 64 ≤ batch_size ≤ 256) ∧
  dom (<["batch_size" := 64]> (<["epochs" := 20]> ∅) : gmap string Z)
    = {["epochs"; "batch_size"]} ∧
  dom hyperparameter_ranges = {["epochs"; "batch_size"]}.
Proof.
  apply (admitted_combination_bounds (<["batch_size" := 64]> (<["epochs" := 20]> ∅))).
  apply (bool_decide_unpack _). vm_compute. reflexivity.
Defined.

(** A value outside a range, a missing name and a name without a range
    are each refused. *)
Example admitted_refuses :
  ¬ admitted hyperparameter_ranges (<["batch_size" := 64]> (<["epochs" := 51]> ∅)) ∧
  ¬ admitted hyperparameter_ranges (<["epochs" := 20]> ∅) ∧
  ¬ admitted hyperparameter_ranges
      (<["dropout" := 1]> (<["batch_size" := 64]> (<["epochs" := 20]> ∅))).
Proof.
  repeat split; apply (bool_decide_unpack _); vm_compute; reflexivity.
Qed.
End TuningFacts.

(** ** The label of a score (cell 28) *)

Section SentimentFacts.
Import Sentiment.

Lemma gtb_greater s q : gtb s q = true ↔ greater s q.
Proof.
  destruct s as [x| | |]; simpl; [|done..].
  rewrite negb_true_iff, <- not_true_iff_false, Qle_bool_iff.
  split; [apply Qnot_le_lt | apply Qlt_not_le].
Qed.

(** C10. [get_sentiment] has a value for every score; it is ['positive']
    exactly when [score > 0.5] and ['negative'] otherwise, so a score of
    exactly 0.5 is ['negative'], and no other string is returned, whatever
    the score (outside the interval from 0 to 1 too). *)
Theorem get_sentiment_threshold (s : score) :
  (get_sentiment s = "positive" ↔ greater s (1 # 2)) ∧
  (get_sentiment s = "negative" ↔ ¬ greater s (1 # 2)) ∧
  (get_sentiment s = "positive" ∨ get_sentiment s = "negative") ∧
  get_sentiment (Finite (1 # 2)) = "negative".
Proof.
  unfold get_sentiment. rewrite <- gtb_greater.
  destruct (gtb s (1 # 2)); repeat split; try done; auto.
Qed.

(** The two labels of the dataset, a score above 1, a score below 0 and
    the special floats. *)
Example get_sentiment_demo :
  get_sentiment <$> [Finite 0; Finite 1; Finite (501 # 1000); Finite (3 # 2);
                     Finite (-1); PosInf; NegInf; NaN]
  = ["negative"; "positive"; "positive"; "positive";
     "negative"; "positive"; "negative"; "negative"].
Proof. reflexivity. Qed.
End SentimentFacts.

(** * Further properties of the code *)

(** ** The reversed dictionary without injectivity (cell 26) *)

Section ReverseFacts.
Import PyDict Decode.
Implicit Types (word_index : list (string * Z)).

Lemma swapped_items_app word_index1 word_index2 :
  swapped_items (word_index1 ++ word_index2)
  = swapped_items word_index1 ++ swapped_items word_index2.
Proof. unfold swapped_items, items. apply fmap_app. Qed.

(** X1. When several words carry one index, the word that comes last in
    [word_index.items()] is the one [reverse_word_index] keeps. *)
Theorem reverse_word_index_last_wins word_index before w i after :
  word_index = before ++ (w, i) :: after →
  i ∉ values after →
  reverse_word_index word_index !! i = Some w.
Proof.
  intros -> Hafter. unfold reverse_word_index.
  rewrite of_pairs_lookup, swapped_items_app.
  change (swapped_items ((w, i) :: after))
    with ((i, w) :: swapped_items after).
  rewrite reverse_app, reverse_cons, <- app_assoc, getitem_app.
  assert (getitem i (reverse (swapped_items after)) = None) as ->.
  { apply getitem_None. rewrite fmap_reverse, elem_of_reverse.
    by rewrite swapped_items_keys. }
  simpl. by rewrite decide_True.
Qed.

Lemma reverse_word_index_last_wins_witness :
  reverse_word_index [("film", 7); ("movie", 7); ("a", 3)] !! 7 = Some "movie".
Proof.
  apply (reverse_word_index_last_wins _ [("film", 7)] "movie" 7 [("a", 3)]).
  - reflexivity.
  - apply (bool_decide_unpack _). vm_compute. reflexivity.
Defined.

Lemma reverse_word_index_Some_elem_of word_index i w :
  reverse_word_index word_index !! i = Some w → (w, i) ∈ word_index.
Proof.
  unfold reverse_word_index. rewrite of_pairs_lookup.
  intros Hget. apply getitem_Some_elem_of in Hget.
  rewrite elem_of_reverse in Hget. by apply elem_of_swapped_items.
Qed.

(** X2. The keys of [reverse_word_index] are exactly the indices that occur
    in [word_index], and the word stored under an index is a word that
    has this index in [word_index]. *)
Theorem reverse_word_index_keys word_index :
  (∀ i, is_Some (reverse_word_index word_index !! i) ↔ i ∈ values word_index) ∧
  (∀ i w, reverse_word_index word_index !! i = Some w → (w, i) ∈ word_index).
Proof.
  split.
  - intros i. rewrite <- not_eq_None_Some, reverse_word_index_None.
    split; [apply dec_stable | by intros ? ?].
  - intros i w. apply reverse_word_index_Some_elem_of.
Qed.

(** X3. Decoding keeps the length of a review and never invents a token:
    each one is the placeholder or a word of [word_index] whose index is
    the review value minus 3. *)
Theorem decode_tokens_known word_index (review : list Z) :
  length (decode_tokens (reverse_word_index word_index) review) = length review ∧
  ∀ k tok, decode_tokens (reverse_word_index word_index) review !! k = Some tok →
    ∃ i, review !! k = Some i ∧ (tok = "?" ∨ (tok, i - 3) ∈ word_index).
Proof.
  unfold decode_tokens. split; [apply length_fmap|].
  intros k tok. rewrite list_lookup_fmap.
  destruct (review !! k) as [i|]; simpl; [|done].
  intros [= <-]. exists i. split; [done|].
  unfold decode_token, get.
  destruct (reverse_word_index word_index !! (i - 3)) as [w|] eqn:Hw; simpl.
  - right. by apply reverse_word_index_Some_elem_of.
  - by left.
Qed.
End ReverseFacts.

(** ** Stripping the leading unknown tokens (cells 26 and 30) *)

Section RegexFacts.
Import PyDict Decode Regex.
Implicit Types (s t : string) (word_index : list (string * Z)).

Lemma regex_sub_run s t :
  all_in_class s = true → regex_sub (s +:+ t) = regex_sub t.
Proof.
  induction s as [|c s IH]; [done|].
  rewrite string_app_cons. simpl.
  intros [Hc Hs]%andb_true_iff. rewrite Hc. by apply IH.
Qed.

Lemma regex_sub_head s :
  match regex_sub s with
  | String c _ => in_class c = false
  | EmptyString => True
  end.
Proof.
  induction s as [|c s IH]; simpl; [done|].
  destruct (in_class c) eqn:Hc; [exact IH | exact Hc].
Qed.

Lemma regex_sub_split s :
  ∃ run, s = run +:+ regex_sub s ∧ all_in_class run = true.
Proof.
  induction s as [|c s (run & Hs & Hrun)]; simpl.
  - by exists "".
  - destruct (in_class c) eqn:Hc.
    + exists (String c run). rewrite string_app_cons, <- Hs. simpl.
      by rewrite Hc, Hrun.
    + by exists "".
Qed.

(** X4. [regex.sub('', s)] removes from [s] a leading run of question marks
    and whitespace and nothing else: what is left does not start with
    such a character, and stripping it again changes nothing. *)
Theorem regex_sub_strips s :
  (∃ run, s = run +:+ regex_sub s ∧ all_in_class run = true) ∧
  match regex_sub s with
  | String c _ => in_class c = false
  | EmptyString => True
  end ∧
  regex_sub (regex_sub s) = regex_sub s.
Proof.
  split; [apply regex_sub_split|]. split; [apply regex_sub_head|].
  pose proof (regex_sub_head s) as Hhead.
  destruct (regex_sub s) as [|c r]; simpl; [done|]. by rewrite Hhead.
Qed.

Lemma regex_sub_unknown_cons (toks : list string) :
  regex_sub (String.concat " " ("?" :: toks)) = regex_sub (String.concat " " toks).
Proof.
  destruct toks as [|tok toks]; [done|].
  change (String.concat " " ("?" :: tok :: toks))
    with ("? " +:+ String.concat " " (tok :: toks)).
  by apply regex_sub_run.
Qed.

(** X5. The unknown tokens a review starts with (padding, the start marker,
    words outside the dictionary) do not show: the displayed text is
    that of the rest of the review. *)
Theorem displayed_review_unknown_prefix word_index (unknown rest : list Z) :
  Forall (λ i, i - 3 ∉ values word_index) unknown →
  displayed_review (reverse_word_index word_index) (unknown ++ rest)
  = displayed_review (reverse_word_index word_index) rest.
Proof.
  unfold displayed_review, decoded_review.
  induction 1 as [|i unknown Hi Hunknown IH]; [done|].
  rewrite <- IH. rewrite <- app_comm_cons.
  change (decode_tokens ?rwi (i :: ?r))
    with (decode_token rwi i :: decode_tokens rwi r).
  rewrite (decode_token_absent _ i) by by apply reverse_word_index_None.
  apply regex_sub_unknown_cons.
Qed.

Lemma displayed_review_unknown_prefix_witness :
  displayed_review (reverse_word_index [("the", 1); ("and", 2); ("a", 3)])
                   ([0; 0; 1; 9] ++ [4; 6; 5])
  = displayed_review (reverse_word_index [("the", 1); ("and", 2); ("a", 3)])
                     [4; 6; 5].
Proof.
  apply (displayed_review_unknown_prefix
           [("the", 1); ("and", 2); ("a", 3)] [0; 0; 1; 9] [4; 6; 5]).
  apply (bool_decide_unpack _). vm_compute. reflexivity.
Defined.

Example displayed_review_demo :
  displayed_review (reverse_word_index [("the", 1); ("and", 2); ("a", 3)])
                   [0; 0; 1; 4; 6; 9; 5]
  = "the a ? and".
Proof. vm_compute. reflexivity. Qed.
End RegexFacts.

(** ** More on the results list (cells 24, 28 and 32) *)

Section ResultsFacts.
Import Batch.
Context {number float : Type}.
Variable fmt_3f : number → string.
Variable float_of_string : string → float.

Abbreviation round3 := (round3 fmt_3f float_of_string).
Abbreviation results := (results fmt_3f float_of_string).

(** X6. The results of two batches of sublists put end to end are the
    results of the first followed by those of the second; and the list
    is empty, so that [results[0]] fails, exactly when every sublist is
    empty. *)
Theorem results_app (predictions1 predictions2 : list (list number)) :
  results (predictions1 ++ predictions2)
  = results predictions1 ++ results predictions2 ∧
  (results predictions1 = [] ↔ Forall (λ sublist, sublist = []) predictions1).
Proof.
  rewrite !results_eq_spec. unfold results_spec. split.
  - by rewrite concat_app, fmap_app.
  - rewrite <- concat_nil_Forall. split.
    + apply fmap_nil_inv.
    + by intros ->.
Qed.

(** X8. With one score per sublist, which is what the notebook relies on
    when it reads [results[5]] next to [y_test[5]] and [x_test[5]],
    [results[i]] is the rounded score of sublist [i]. *)
Theorem results_one_per_row (scores : list number) :
  results ((λ score, [score]) <$> scores) = round3 <$> scores.
Proof.
  rewrite results_eq_spec. unfold results_spec. f_equal.
  induction scores as [|score scores IH]; [done|].
  rewrite fmap_cons. simpl. by f_equal.
Qed.
End ResultsFacts.

Lemma results_lookup_witness :
  Batch.results Prepare.fmt_d (λ s, s) [[1; 2]; []; [3; 4]]
    !! (sum_list (length <$> take 2 [[1; 2]; []; [3; 4]]) + 1)%nat
  = Some (Batch.round3 Prepare.fmt_d (λ s, s) 4).
Proof.
  apply (results_lookup Prepare.fmt_d (λ s, s) [[1; 2]; []; [3; 4]] 2 1 [3; 4] 4);
    reflexivity.
Defined.

(** ** Reading the CSV file back (cell 4) *)

Section CsvFacts.
Import Prepare CsvRead.

Lemma string_of_uint_no_comma d :
  contains "," (NilEmpty.string_of_uint d) = false.
Proof. induction d; simpl; repeat case_decide; done. Qed.

Lemma fmt_d_no_comma v : contains "," (fmt_d v) = false.
Proof.
  unfold fmt_d, NilZero.string_of_int, NilZero.string_of_uint.
  destruct (Z.to_int v) as [d|d]; destruct d; simpl;
    repeat case_decide; try done; apply string_of_uint_no_comma.
Qed.

Lemma fields_of_field f :
  contains "," f = false → fields_of f = [f].
Proof.
  induction f as [|c f IH]; simpl; [done|].
  case_decide as Hc; [done|]. intros Hf. by rewrite IH.
Qed.

Lemma fields_of_cons f rest :
  contains "," f = false →
  fields_of (f +:+ "," +:+ rest) = f :: fields_of rest.
Proof.
  induction f as [|c f IH].
  - done.
  - rewrite string_app_cons. simpl.
    case_decide as Hc; [done|]. intros Hf. by rewrite IH.
Qed.

Lemma fields_of_concat (fs : list string) :
  fs ≠ [] → Forall (λ f, contains "," f = false) fs →
  fields_of (String.concat "," fs) = fs.
Proof.
  intros Hne Hfs. induction Hfs as [|f fs Hf Hfs IH]; [done|].
  destruct fs as [|f' fs].
  - by apply fields_of_field.
  - change (String.concat "," (f :: f' :: fs))
      with (f +:+ "," +:+ String.concat "," (f' :: fs)).
    rewrite fields_of_cons by done. by rewrite IH.
Qed.

Lemma parse_int_fmt_d v : parse_int (fmt_d v) = Some v.
Proof. apply fmt_d_decimal. Qed.

Lemma mapM_parse_int_fmt_d (row : list Z) :
  mapM parse_int (fmt_d <$> row) = Some row.
Proof.
  apply mapM_Some. apply Forall2_fmap_l, Forall_Forall2_diag, Forall_forall.
  intros v _. apply parse_int_fmt_d.
Qed.

Lemma read_row_row_text (row : list Z) :
  row ≠ [] → read_row (row_text "," row) = Some row.
Proof.
  intros Hne. unfold read_row, row_text. rewrite fields_of_concat.
  - apply mapM_parse_int_fmt_d.
  - by destruct row.
  - apply Forall_fmap, Forall_forall. intros v _. apply fmt_d_no_comma.
Qed.

(** X9. Reading [csv-test.csv] back, line by line, field by field and
    numeral by numeral, returns the first 100 rows of [x_test] with
    their values as int32, provided none of these rows is empty. *)
Theorem csv_test_read_back (x_test : list (list Z)) :
  Forall (λ row, row ≠ []) (first_100 x_test) →
  read_csv (csv_test x_test) = Some (as_int32 (first_100 x_test)).
Proof.
  intros Hne. unfold read_csv. rewrite csv_test_unlines, lines_of_unlines.
  - apply mapM_Some. unfold as_int32, first_100 in *.
    apply Forall2_fmap, Forall_Forall2_diag.
    eapply Forall_impl; [exact Hne|]. intros row Hrow. simpl.
    apply read_row_row_text. by destruct row.
  - apply Forall_fmap, Forall_forall. intros row _.
    by apply row_text_no_newline.
Qed.

Lemma csv_test_read_back_witness :
  read_csv (csv_test [[0; 0; 14; 2071]; [0; 1; 5; 9]])
  = Some (as_int32 (first_100 [[0; 0; 14; 2071]; [0; 1; 5; 9]])).
Proof.
  apply (csv_test_read_back [[0; 0; 14; 2071]; [0; 1; 5; 9]]).
  apply (bool_decide_unpack _). vm_compute. reflexivity.
Defined.

(** X10. Values that fit 32 signed bits, as word indices below
    [max_features] do, are written as they are: the conversion to int32
    changes nothing in the file. *)
Theorem csv_test_in_range (x_test : list (list Z)) :
  Forall (Forall (λ v, - 2 ^ 31 ≤ v < 2 ^ 31)) (first_100 x_test) →
  csv_test x_test = savetxt (first_100 x_test) ",".
Proof.
  intros Hrange. unfold csv_test. f_equal. unfold as_int32.
  induction Hrange as [|row rows Hrow Hrows IH]; [done|].
  rewrite fmap_cons, IH. f_equal.
  induction Hrow as [|v row Hv Hrow IHrow]; [done|].
  by rewrite fmap_cons, IHrow, to_int32_id.
Qed.

Lemma csv_test_in_range_witness :
  csv_test [[0; 0; 14; 2071]; [0; 1; 5; 19999]]
  = savetxt (first_100 [[0; 0; 14; 2071]; [0; 1; 5; 19999]]) ",".
Proof.
  apply (csv_test_in_range [[0; 0; 14; 2071]; [0; 1; 5; 19999]]).
  apply (bool_decide_unpack _). vm_compute. reflexivity.
Defined.

(** A value that does not fit wraps around. *)
Example csv_test_wraps :
  csv_test [[2 ^ 31; 2 ^ 32 + 7]] = "-2147483648,7" +:+ newline.
Proof. vm_compute. reflexivity. Qed.
End CsvFacts.

(** ** The name of the tuning job (cell 36) *)

Section TuningJobFacts.
Import TuningJob.
Implicit Types (s t : string) (n m : Z).

Lemma string_length_app s t :
  String.length (s +:+ t) = (String.length s + String.length t)%nat.
Proof.
  induction s as [|c s IH]; [done|].
  rewrite string_app_cons. simpl. by rewrite IH.
Qed.

Lemma all_name_chars_app s t :
  all_name_chars (s +:+ t) = all_name_chars s && all_name_chars t.
Proof.
  induction s as [|c s IH]; [done|].
  rewrite string_app_cons. simpl. by rewrite IH, andb_assoc.
Qed.

(** Below one hundred a field is two digits. *)
Lemma two_digits_shape n :
  0 ≤ n < 100 →
  String.length (two_digits n) = 2%nat ∧ all_name_chars (two_digits n) = true.
Proof.
  intros Hn. assert (n ∈ seqZ 0 100) as Hin by (apply elem_of_seqZ; lia).
  clear Hn. revert n Hin. apply Forall_forall.
  apply (bool_decide_unpack _). vm_compute. reflexivity.
Qed.

Lemma two_digits_inj n m :
  0 ≤ n < 100 → 0 ≤ m < 100 → two_digits n = two_digits m → n = m.
Proof.
  intros Hn Hm.
  assert (n ∈ seqZ 0 100) as Hnin by (apply elem_of_seqZ; lia).
  assert (m ∈ seqZ 0 100) as Hmin by (apply elem_of_seqZ; lia).
  assert (Forall (λ n, Forall (λ m, two_digits n = two_digits m → n = m)
                               (seqZ 0 100)) (seqZ 0 100)) as Hall.
  { apply (bool_decide_unpack _). vm_compute. reflexivity. }
  rewrite Forall_forall in Hall. specialize (Hall n Hnin).
  rewrite Forall_forall in Hall. exact (Hall m Hmin).
Qed.

Lemma two_digits_chars n :
  0 ≤ n < 100 → ∃ a b, two_digits n = String a (String b EmptyString).
Proof.
  intros [Hlen _]%two_digits_shape.
  destruct (two_digits n) as [|a [|b [|c r]]]; try done. by exists a, b.
Qed.

(** X11. Whatever the time, the job name has 32 characters, all of them
    lower-case letters, digits or hyphens. *)
Theorem tuning_job_name_length (now : struct_time) :
  valid_time now →
  String.length (tuning_job_name now) = 32%nat ∧
  all_name_chars (tuning_job_name now) = true.
Proof.
  intros (Hd & Hh & Hm & Hs).
  destruct (two_digits_shape (tm_mday now)) as [Ld Cd]; [lia|].
  destruct (two_digits_shape (tm_hour now)) as [Lh Ch]; [lia|].
  destruct (two_digits_shape (tm_min now)) as [Lm Cm]; [lia|].
  destruct (two_digits_shape (tm_sec now)) as [Ls Cs]; [lia|].
  unfold tuning_job_name, strftime_dHMS. split.
  - rewrite !string_length_app, Ld, Lh, Lm, Ls. reflexivity.
  - rewrite !all_name_chars_app, Cd, Ch, Cm, Cs. reflexivity.
Qed.

Lemma tuning_job_name_length_witness :
  String.length (tuning_job_name
    {| tm_year := 2019; tm_mon := 11; tm_mday := 7; tm_hour := 9; tm_min := 5;
       tm_sec := 0; tm_wday := 3; tm_yday := 311; tm_isdst := 0 |}) = 32%nat ∧
  all_name_chars (tuning_job_name
    {| tm_year := 2019; tm_mon := 11; tm_mday := 7; tm_hour := 9; tm_min := 5;
       tm_sec := 0; tm_wday := 3; tm_yday := 311; tm_isdst := 0 |}) = true.
Proof.
  apply (tuning_job_name_length
    {| tm_year := 2019; tm_mon := 11; tm_mday := 7; tm_hour := 9; tm_min := 5;
       tm_sec := 0; tm_wday := 3; tm_yday := 311; tm_isdst := 0 |}).
  apply (bool_decide_unpack _). vm_compute. reflexivity.
Defined.

(** X12. The name tells the day of the month, the hour, the minute and the
    second, and nothing else: two jobs get the same name exactly when
    they start at the same second of the same day of the month, be it in
    different months or years. *)
Theorem tuning_job_name_same (t1 t2 : struct_time) :
  valid_time t1 → valid_time t2 →
  tuning_job_name t1 = tuning_job_name t2 ↔
  tm_mday t1 = tm_mday t2 ∧ tm_hour t1 = tm_hour t2 ∧
  tm_min t1 = tm_min t2 ∧ tm_sec t1 = tm_sec t2.
Proof.
  intros (Hd1 & Hh1 & Hm1 & Hs1) (Hd2 & Hh2 & Hm2 & Hs2).
  unfold tuning_job_name, strftime_dHMS. split.
  - intros Heq. apply (inj (String.append _)) in Heq. revert Heq.
    destruct (two_digits_chars (tm_mday t1)) as (a1 & b1 & Ed1); [lia|].
    destruct (two_digits_chars (tm_hour t1)) as (c1 & d1 & Eh1); [lia|].
    destruct (two_digits_chars (tm_min t1)) as (e1 & f1 & Em1); [lia|].
    destruct (two_digits_chars (tm_mday t2)) as (a2 & b2 & Ed2); [lia|].
    destruct (two_digits_chars (tm_hour t2)) as (c2 & d2 & Eh2); [lia|].
    destruct (two_digits_chars (tm_min t2)) as (e2 & f2 & Em2); [lia|].
    rewrite Ed1, Eh1, Em1, Ed2, Eh2, Em2.
    intros [= -> -> -> -> -> -> Hsec].
    rewrite <- Ed2 in Ed1. rewrite <- Eh2 in Eh1. rewrite <- Em2 in Em1.
    repeat split; apply two_digits_inj; try done; lia.
  - by intros (-> & -> & -> & ->).
Qed.

Lemma tuning_job_name_same_witness :
  tuning_job_name
    {| tm_year := 2019; tm_mon := 11; tm_mday := 7; tm_hour := 9; tm_min := 5;
       tm_sec := 0; tm_wday := 3; tm_yday := 311; tm_isdst := 0 |}
  = tuning_job_name
    {| tm_year := 2019; tm_mon := 12; tm_mday := 7; tm_hour := 9; tm_min := 5;
       tm_sec := 0; tm_wday := 5; tm_yday := 341; tm_isdst := 0 |} ↔
  7 = 7 ∧ 9 = 9 ∧ 5 = 5 ∧ 0 = 0.
Proof.
  apply (tuning_job_name_same
    {| tm_year := 2019; tm_mon := 11; tm_mday := 7; tm_hour := 9; tm_min := 5;
       tm_sec := 0; tm_wday := 3; tm_yday := 311; tm_isdst := 0 |}
    {| tm_year := 2019; tm_mon := 12; tm_mday := 7; tm_hour := 9; tm_min := 5;
       tm_sec := 0; tm_wday := 5; tm_yday := 341; tm_isdst := 0 |});
    apply (bool_decide_unpack _); vm_compute; reflexivity.
Defined.

Example tuning_job_name_demo :
  tuning_job_name
    {| tm_year := 2019; tm_mon := 11; tm_mday := 7; tm_hour := 9; tm_min := 5;
       tm_sec := 0; tm_wday := 3; tm_yday := 311; tm_isdst := 0 |}
  = "tf-sentimentanalysis-07-09-05-00".
Proof. vm_compute. reflexivity. Qed.
End TuningJobFacts.

(** ** More on the label of a score (cells 28 and 32) *)

Section LabelFacts.
Import Sentiment.

Lemma get_sentiment_positive_gtb s :
  get_sentiment s = "positive" ↔ gtb s (1 # 2) = true.
Proof. unfold get_sentiment. by destruct (gtb s (1 # 2)). Qed.

(** X13. The label never goes back from positive to negative when the score
    grows. *)
Theorem get_sentiment_monotone (x y : Q) :
  (x <= y)%Q →
  get_sentiment (Finite x) = "positive" → get_sentiment (Finite y) = "positive".
Proof.
  intros Hxy. rewrite !get_sentiment_positive_gtb, !gtb_greater. simpl.
  intros Hx. by eapply Qlt_le_trans.
Qed.

Lemma get_sentiment_monotone_witness :
  get_sentiment (Finite (9 # 10)) = "positive".
Proof.
  apply (get_sentiment_monotone (6 # 10) (9 # 10)).
  - unfold Qle. simpl. lia.
  - reflexivity.
Defined.

(** X14. On an integer, such as a label of the dataset, the result is
    positive from 1 upwards and negative from 0 downwards: label 1 reads
    positive and label 0 negative. *)
Theorem get_sentiment_label (label : Z) :
  (get_sentiment (Finite (inject_Z label)) = "positive" ↔ 1 ≤ label) ∧
  (get_sentiment (Finite (inject_Z label)) = "negative" ↔ label ≤ 0).
Proof.
  assert (gtb (Finite (inject_Z label)) (1 # 2) = true ↔ 1 ≤ label) as Hgt.
  { rewrite gtb_greater. unfold greater, Qlt. simpl. lia. }
  unfold get_sentiment.
  destruct (gtb (Finite (inject_Z label)) (1 # 2)) eqn:Hb.
  - assert (1 ≤ label) by by apply Hgt. split; split; (done || lia).
  - assert (¬ 1 ≤ label) by (rewrite <- Hgt; congruence).
    split; split; (done || lia).
Qed.
End LabelFacts.

(** ** The data directories (cells 3, 4 and 12) *)

Section PathFacts.
Import Paths.
Implicit Types (s t a b : string).

Lemma ends_with_sep_app s t :
  t ≠ "" → ends_with_sep (s +:+ t) = ends_with_sep t.
Proof.
  intros Ht. induction s as [|c s IH]; [done|].
  rewrite string_app_cons. simpl. rewrite IH.
  destruct (s +:+ t) eqn:Hst; [|done].
  destruct s; [by rewrite string_app_nil_l in Hst | done].
Qed.

Lemma string_app_not_nil s t : t ≠ "" → s +:+ t ≠ "".
Proof. intros Ht. destruct s; [by rewrite string_app_nil_l | done]. Qed.

(** Joining a relative name to a directory that does not end with a
    separator puts one separator between the two. *)
Lemma path_join_sub a b :
  starts_with_sep b = false → a ≠ "" → ends_with_sep a = false →
  path_join a b = a +:+ "/" +:+ b.
Proof.
  intros Hb Ha Hsep. unfold path_join.
  by rewrite Hb, Hsep, bool_decide_eq_false_2.
Qed.

(** Joining a relative name made of two parts is joining the first part
    and then the second. *)
Lemma path_join_data (cwd : string) (name : string) :
  path_join cwd ("data/" +:+ name) = path_join cwd "data" +:+ "/" +:+ name.
Proof.
  unfold path_join.
  change (starts_with_sep ("data/" +:+ name)) with false.
  change (starts_with_sep "data") with false. cbv iota.
  destruct (bool_decide (cwd = "") || ends_with_sep cwd);
    by rewrite !string_app_assoc.
Qed.

Lemma path_join_file (dir name file : string) :
  name ≠ "" → ends_with_sep name = false → starts_with_sep file = false →
  path_join (dir +:+ name) file = dir +:+ name +:+ "/" +:+ file.
Proof.
  intros Hname Hsep Hfile. rewrite path_join_sub.
  - by rewrite string_app_assoc.
  - done.
  - by apply string_app_not_nil.
  - by rewrite ends_with_sep_app.
Qed.

(** X15. Whatever the working directory, the train, test and csv-test
    directories are the sub-directories of [data_dir] with these names,
    the five files of cell 4 are written inside them, and the two local
    input channels point at the first two. *)
Theorem data_dirs_nested (cwd : string) :
  train_dir cwd = data_dir cwd +:+ "/train" ∧
  test_dir cwd = data_dir cwd +:+ "/test" ∧
  csv_test_dir cwd = data_dir cwd +:+ "/csv-test" ∧
  x_train_npy cwd = data_dir cwd +:+ "/train/x_train.npy" ∧
  y_train_npy cwd = data_dir cwd +:+ "/train/y_train.npy" ∧
  x_test_npy cwd = data_dir cwd +:+ "/test/x_test.npy" ∧
  y_test_npy cwd = data_dir cwd +:+ "/test/y_test.npy" ∧
  csv_test_csv cwd = data_dir cwd +:+ "/csv-test/csv-test.csv" ∧
  inputs cwd !! "train" = Some ("file://" +:+ data_dir cwd +:+ "/train") ∧
  inputs cwd !! "test" = Some ("file://" +:+ data_dir cwd +:+ "/test").
Proof.
  assert (train_dir cwd = data_dir cwd +:+ "/train") as Htrain
    by apply (path_join_data cwd "train").
  assert (test_dir cwd = data_dir cwd +:+ "/test") as Htest
    by apply (path_join_data cwd "test").
  assert (csv_test_dir cwd = data_dir cwd +:+ "/csv-test") as Hcsv
    by apply (path_join_data cwd "csv-test").
  unfold x_train_npy, y_train_npy, x_test_npy, y_test_npy, csv_test_csv, inputs.
  rewrite lookup_insert_ne, lookup_insert_eq, lookup_insert_eq by done.
  rewrite Htrain, Htest, Hcsv.
  repeat split; by apply path_join_file.
Qed.
End PathFacts.
